(** * Recommendation tool handlers of the Semantic Scholar MCP server

    A shallow embedding of [semantic_scholar/api/recommendations.py]:
    the two tool handlers [get_paper_recommendations_single] and
    [get_paper_recommendations_multi], written in a small monad that
    records the effects the handlers perform (rate-limiter acquisition,
    HTTP client construction, requests, logging) and threads Python
    exceptions through [try]/[except]; and of the process life cycle of
    [semantic_scholar/server.py] ([shutdown], [run_server], [main] and
    the loop's exception handler), in a monad of the same kind. *)

From Stdlib Require Import ZArith String Ascii List DecimalString Lia.
From stdpp Require Import base decidable option list strings.

Local Open Scope Z_scope.
Local Open Scope string_scope.

(** ** Python values *)

(** The JSON-like Python values the handlers build and return.  A [dict]
    keeps insertion order, hence the association list. *)
#[warnings="-register-all"]
Inductive value : Type :=
| VNone
| VBool (b : bool)
| VInt (z : Z)
| VStr (s : string)
| VList (l : list value)
| VDict (d : list (string * value)).

Definition dict : Type := list (string * value).

(** [str(n)] for an [int]. *)
Definition str_int (z : Z) : string := NilZero.string_of_int (Z.to_int z).

(** Truthiness of an [Optional[str]]: [None] and the empty string are falsy. *)
Definition truthy_str (o : option string) : bool :=
  match o with
  | Some s => negb (String.eqb s "")
  | None => false
  end.

(** Truthiness of a list: only the empty list is falsy. *)
Definition truthy_list {A} (l : list A) : bool :=
  match l with [] => false | _ => true end.

(** [x or []] for an [Optional[List[str]]]. *)
Definition or_empty (o : option (list string)) : list string :=
  match o with
  | Some (x :: l) => x :: l
  | _ => []
  end.

Definition py_opt_list (o : option (list string)) : value :=
  match o with
  | Some l => VList (map VStr l)
  | None => VNone
  end.

(** ** httpx: requests, responses, exceptions *)

Inductive method := GET | POST.

Record Request := {
  req_method : method;
  req_url : string;
  req_params : dict;
  req_json : option value;
  req_headers : list (string * string)
}.

(** A response as the handlers observe it: [status_code], [headers],
    [text], and the outcome of [response.json()], which is either the
    decoded body or the message of the decoding error it raises. *)
Record Response := {
  status_code : Z;
  headers : list (string * string);
  text : string;
  json : string + value
}.

Definition lower_ascii (c : ascii) : ascii :=
  let n := nat_of_ascii c in
  if ((65 <=? n)%nat && (n <=? 90)%nat)%bool then ascii_of_nat (n + 32) else c.

Fixpoint lower (s : string) : string :=
  match s with
  | EmptyString => EmptyString
  | String c s' => String (lower_ascii c) (lower s')
  end.

Fixpoint join (sep : string) (l : list string) : string :=
  match l with
  | [] => ""
  | [x] => x
  | x :: l' => x ++ sep ++ join sep l'
  end.

(** [response.headers.get(key)]: httpx keeps header names lower-cased,
    looks the lower-cased key up, joins repeated headers with a comma,
    and gives [None] when the header is absent. *)
Definition headers_get (key : string) (h : list (string * string)) : value :=
  match map snd (List.filter (fun kv => String.eqb (fst kv) (lower key)) h) with
  | [] => VNone
  | items => VStr (join ", " items)
  end.

(** Instances of Python's [Exception] that can reach the handlers'
    [except] clauses, each with its [str(e)].  Cancellation is no
    [Exception]; it is an ending of its own, see [outcome]. *)
Inductive exn :=
| HTTPStatusError (msg : string) (response : Response)
| TimeoutException (msg : string)
| OtherException (msg : string).

Definition str_exn (e : exn) : string :=
  match e with
  | HTTPStatusError m _ => m
  | TimeoutException m => m
  | OtherException m => m
  end.

(** ** Effects *)

(** The client a request goes through: the process-wide client that
    [server.py] creates with [initialize_client] and releases with
    [cleanup_client], or an [httpx.AsyncClient] built on the spot. *)
Inductive client :=
| shared_client
| AsyncClient (timeout : Z).

Inductive event :=
| EvAcquire (endpoint : string)
| EvClientNew (c : client)
| EvSend (c : client) (r : Request)
| EvClientClose (c : client)
| EvLogError (msg : string).

(** How an awaited call ends: it returns, it raises an instance of
    [Exception], or the task is cancelled while it waits, which raises
    [asyncio.CancelledError], a [BaseException] that no
    [except Exception] clause catches.  In the handlers a cancellation
    arrives at the await of the request; the wait in the rate limiter
    is modelled from the spec, which has it return. *)
Inductive outcome (A : Type) :=
| Returned (a : A)
| Raised (e : exn)
| Cancelled.
Arguments Returned {A} a.
Arguments Raised {A} e.
Arguments Cancelled {A}.

(** A computation yields an outcome and the trace of what it did. *)
Definition M (A : Type) : Type := outcome A * list event.

Definition result {A} (m : M A) : outcome A := fst m.
Definition trace {A} (m : M A) : list event := snd m.

Definition ret {A} (a : A) : M A := (Returned a, []).
Definition raise {A} (e : exn) : M A := (Raised e, []).
Definition emit (ev : event) : M unit := (Returned tt, [ev]).

Definition bind {A B} (m : M A) (f : A -> M B) : M B :=
  match m with
  | (Returned a, t) => let '(r, t') := f a in (r, (t ++ t')%list)
  | (Raised e, t) => (Raised e, t)
  | (Cancelled, t) => (Cancelled, t)
  end.

(** [try: m except Exception as e: h e]; a cancellation passes through. *)
Definition try_except {A} (m : M A) (h : exn -> M A) : M A :=
  match m with
  | (Raised e, t) => let '(r, t') := h e in (r, (t ++ t')%list)
  | (Returned a, t) => (Returned a, t)
  | (Cancelled, t) => (Cancelled, t)
  end.

#[global] Instance M_ret : MRet M := @ret.
#[global] Instance M_bind : MBind M := fun A B f m => bind m f.

(** ** Collaborators that live outside this module *)

(** What an invocation depends on besides its arguments:
    [Config.TIMEOUT] (seconds), the credential held by the process-wide
    configuration, and how the await of a request ends: with a
    response, with the exception the transport raises, or with the
    cancellation of the invocation. *)
Record Env := {
  Config_TIMEOUT : Z;
  configured_api_key : option string;
  upstream : Request -> outcome Response
}.

(** Modelled from the spec: [get_api_key] of [utils/http.py], the
    Credential Resolver, which supplies an optional API key from
    process-wide configuration as a stateless, pure lookup. *)
Definition get_api_key (env : Env) : option string := configured_api_key env.

(** Modelled from the spec: [rate_limiter.acquire] of [utils/http.py],
    which suspends the caller until the endpoint's pacing policy lets it
    proceed and then returns no value; it only delays and does not fail. *)
Definition rate_limiter_acquire (endpoint : string) : M unit :=
  emit (EvAcquire endpoint).

(** Modelled from the spec: the [ErrorType] enumeration of [config.py],
    the kinds of the Error Envelope. *)
Module ErrorType.
Inductive t := VALIDATION | RATE_LIMIT | API_ERROR | TIMEOUT | NOT_FOUND.
End ErrorType.

(** The Error Envelope: a kind, a message, and a mapping of details. *)
Record ErrorEnvelope := {
  kind : ErrorType.t;
  message : string;
  details : dict
}.

(** Modelled from the spec: [create_error_response] of [utils/errors.py],
    which constructs the Error Envelope from a kind, a message and
    optional details; details that are not passed give the empty mapping. *)
Definition create_error_response
    (error_type : ErrorType.t) (msg : string) (dts : option dict) : ErrorEnvelope :=
  {| kind := error_type; message := msg; details := default [] dts |}.

(** What a tool returns: the decoded upstream body, or an envelope. *)
Inductive tool_result :=
| Body (v : value)
| Error (e : ErrorEnvelope).

(** ** httpx operations *)

(** [async with httpx.AsyncClient(timeout=t) as client: body]: the client
    is built, the block runs, and the client is closed however the block
    ends (by [return], or by an exception or a cancellation, which then
    propagates). *)
Definition async_with_AsyncClient {A} (t : Z) (body : client -> M A) : M A :=
  let c := AsyncClient t in
  let '(r, tr) := body c in
  (r, (EvClientNew c :: tr ++ [EvClientClose c])%list).

(** [await client.get(...)] / [await client.post(...)] *)
Definition client_send (env : Env) (c : client) (r : Request) : M Response :=
  (upstream env r, [EvSend c r]).

Definition client_get (env : Env) (c : client)
    (url : string) (params : dict) (hs : list (string * string)) : M Response :=
  client_send env c
    {| req_method := GET; req_url := url; req_params := params;
       req_json := None; req_headers := hs |}.

Definition client_post (env : Env) (c : client)
    (url : string) (params : dict) (body : value) (hs : list (string * string))
    : M Response :=
  client_send env c
    {| req_method := POST; req_url := url; req_params := params;
       req_json := Some body; req_headers := hs |}.

Definition is_success (r : Response) : bool :=
  ((200 <=? status_code r)%Z && (status_code r <=? 299)%Z)%bool.

(** [response.raise_for_status()]: httpx returns when [is_success] holds
    (a 2xx status) and raises [HTTPStatusError] carrying the response for
    every other status.  The handlers never read the message of that
    exception, only its response. *)
Definition raise_for_status (r : Response) : M unit :=
  if is_success r then ret tt
  else raise (HTTPStatusError ("HTTP status " ++ str_int (status_code r)) r).

(** [response.json()] *)
Definition response_json (r : Response) : M value :=
  match json r with
  | inr v => ret v
  | inl m => raise (OtherException m)
  end.

(** [logger.error(msg)] *)
Definition logger_error (msg : string) : M unit := emit (EvLogError msg).

(** ** The handlers *)

(** [get_paper_recommendations_single]: the [try] block. *)
Definition single_body (env : Env)
    (paper_id : string) (fields : option string) (limit : Z) (from_pool : string)
    : M tool_result :=
  (* Apply rate limiting *)
  let endpoint := "/recommendations" in
  rate_limiter_acquire endpoint;;
  (* Validate limit *)
  if (limit >? 500)%Z then
    mret (Error (create_error_response ErrorType.VALIDATION
      "Cannot request more than 500 recommendations"
      (Some [("max_limit", VInt 500); ("requested", VInt limit)])))
  (* Validate pool *)
  else if negb (bool_decide (from_pool ∈ ["recent"; "all-cs"])) then
    mret (Error (create_error_response ErrorType.VALIDATION
      "Invalid paper pool specified"
      (Some [("valid_pools", VList [VStr "recent"; VStr "all-cs"])])))
  else
    (* Build request parameters *)
    let params := [("limit", VInt limit); ("from", VStr from_pool)] in
    let params :=
      if truthy_str fields
      then (params ++ [("fields", VStr (default "" fields))])%list
      else params in
    (* Make the API request *)
    async_with_AsyncClient (Config_TIMEOUT env) (fun client =>
      let api_key := get_api_key env in
      let hs := if truthy_str api_key
                then [("x-api-key", default "" api_key)] else [] in
      let url :=
        "https://api.semanticscholar.org/recommendations/v1/papers/forpaper/"
          ++ paper_id in
      response ← client_get env client url params hs;
      (* Handle specific error cases *)
      if (status_code response =? 404)%Z then
        mret (Error (create_error_response ErrorType.VALIDATION
          "Paper not found"
          (Some [("paper_id", VStr paper_id)])))
      else
        raise_for_status response;;
        body ← response_json response;
        mret (Body body)).

(** [get_paper_recommendations_multi]: the [try] block. *)
Definition multi_body (env : Env)
    (positive_paper_ids : list string) (negative_paper_ids : option (list string))
    (fields : option string) (limit : Z)
    : M tool_result :=
  (* Apply rate limiting *)
  let endpoint := "/recommendations" in
  rate_limiter_acquire endpoint;;
  (* Validate inputs *)
  if negb (truthy_list positive_paper_ids) then
    mret (Error (create_error_response ErrorType.VALIDATION
      "Must provide at least one positive paper ID"
      None))
  else if (limit >? 500)%Z then
    mret (Error (create_error_response ErrorType.VALIDATION
      "Cannot request more than 500 recommendations"
      (Some [("max_limit", VInt 500); ("requested", VInt limit)])))
  else
    (* Build request parameters *)
    let params := [("limit", VInt limit)] in
    let params :=
      if truthy_str fields
      then (params ++ [("fields", VStr (default "" fields))])%list
      else params in
    let request_body := VDict
      [("positivePaperIds", VList (map VStr positive_paper_ids));
       ("negativePaperIds", VList (map VStr (or_empty negative_paper_ids)))] in
    (* Make the API request *)
    async_with_AsyncClient (Config_TIMEOUT env) (fun client =>
      let api_key := get_api_key env in
      let hs := if truthy_str api_key
                then [("x-api-key", default "" api_key)] else [] in
      let url := "https://api.semanticscholar.org/recommendations/v1/papers" in
      response ← client_post env client url params request_body hs;
      (* Handle specific error cases *)
      if (status_code response =? 404)%Z then
        mret (Error (create_error_response ErrorType.VALIDATION
          "One or more input papers not found"
          (Some [("positive_ids", VList (map VStr positive_paper_ids));
                 ("negative_ids", py_opt_list negative_paper_ids)])))
      else
        raise_for_status response;;
        body ← response_json response;
        mret (Body body)).

(** The [except] clauses, the same in both handlers; the first clause
    whose class matches handles the exception. *)
Definition except_clauses (env : Env) (e : exn) : M tool_result :=
  match e with
  | HTTPStatusError _ response =>
      if (status_code response =? 429)%Z then
        mret (Error (create_error_response ErrorType.RATE_LIMIT
          "Rate limit exceeded. Consider using an API key for higher limits."
          (Some [("retry_after", headers_get "retry-after" (headers response));
                 ("authenticated", VBool (truthy_str (get_api_key env)))])))
      else
        mret (Error (create_error_response ErrorType.API_ERROR
          ("HTTP error " ++ str_int (status_code response))
          (Some [("response", VStr (text response))])))
  | TimeoutException _ =>
      mret (Error (create_error_response ErrorType.TIMEOUT
        ("Request timed out after " ++ str_int (Config_TIMEOUT env) ++ " seconds")
        None))
  | _ =>
      logger_error ("Unexpected error in recommendations: " ++ str_exn e);;
      mret (Error (create_error_response ErrorType.API_ERROR
        "Failed to get recommendations"
        (Some [("error", VStr (str_exn e))])))
  end.

Definition get_paper_recommendations_single (env : Env)
    (paper_id : string) (fields : option string) (limit : Z) (from_pool : string)
    : M tool_result :=
  try_except (single_body env paper_id fields limit from_pool)
             (except_clauses env).

Definition get_paper_recommendations_multi (env : Env)
    (positive_paper_ids : list string) (negative_paper_ids : option (list string))
    (fields : option string) (limit : Z)
    : M tool_result :=
  try_except (multi_body env positive_paper_ids negative_paper_ids fields limit)
             (except_clauses env).

(** ** Invocations *)

(** A tool invocation with its arguments; an omitted argument takes the
    default of the signature ([fields=None], [limit=100],
    [from_pool="recent"], [negative_paper_ids=None]). *)
Inductive tool_call :=
| Single (paper_id : string) (fields : option string) (limit : Z)
         (from_pool : string)
| Multi (positive_paper_ids : list string)
        (negative_paper_ids : option (list string))
        (fields : option string) (limit : Z).

Definition invoke (env : Env) (call : tool_call) : M tool_result :=
  match call with
  | Single p f l fp => get_paper_recommendations_single env p f l fp
  | Multi pos neg f l => get_paper_recommendations_multi env pos neg f l
  end.

Definition try_block (env : Env) (call : tool_call) : M tool_result :=
  match call with
  | Single p f l fp => single_body env p f l fp
  | Multi pos neg f l => multi_body env pos neg f l
  end.

Definition limit_of (call : tool_call) : Z :=
  match call with
  | Single _ _ l _ => l
  | Multi _ _ _ l => l
  end.

(** The arguments pass every local check of the handler. *)
Definition valid (call : tool_call) : Prop :=
  match call with
  | Single _ _ l fp => l <= 500 /\ fp ∈ ["recent"; "all-cs"]
  | Multi pos _ _ l => pos <> [] /\ l <= 500
  end.

(** Network calls of a run: the requests that were sent. *)
Definition is_send (ev : event) : bool :=
  match ev with EvSend _ _ => true | _ => false end.

Definition network_calls (t : list event) : nat :=
  length (List.filter is_send t).

(** The query parameters and headers every request carries. *)
Definition with_fields (params : dict) (fields : option string) : dict :=
  if truthy_str fields
  then (params ++ [("fields", VStr (default "" fields))])%list else params.

Definition credential_headers (env : Env) : list (string * string) :=
  if truthy_str (get_api_key env)
  then [("x-api-key", default "" (get_api_key env))] else [].

(** The one request a valid call sends. *)
Definition request_of (env : Env) (call : tool_call) : Request :=
  match call with
  | Single p f l fp =>
      {| req_method := GET;
         req_url :=
           "https://api.semanticscholar.org/recommendations/v1/papers/forpaper/"
             ++ p;
         req_params := with_fields [("limit", VInt l); ("from", VStr fp)] f;
         req_json := None;
         req_headers := credential_headers env |}
  | Multi pos neg f l =>
      {| req_method := POST;
         req_url := "https://api.semanticscholar.org/recommendations/v1/papers";
         req_params := with_fields [("limit", VInt l)] f;
         req_json := Some (VDict
           [("positivePaperIds", VList (map VStr pos));
            ("negativePaperIds", VList (map VStr (or_empty neg)))]);
         req_headers := credential_headers env |}
  end.

(** A credential is attached to a request when it carries the key header. *)
Definition has_credential (r : Request) : bool :=
  existsb (fun kv => String.eqb (fst kv) "x-api-key") (req_headers r).

(** The envelope of the limit check. *)
Definition limit_envelope (limit : Z) : ErrorEnvelope :=
  {| kind := ErrorType.VALIDATION;
     message := "Cannot request more than 500 recommendations";
     details := [("max_limit", VInt 500); ("requested", VInt limit)] |}.

(** The limit check is reached: the checks before it passed. *)
Definition reaches_limit_check (call : tool_call) : Prop :=
  match call with
  | Single _ _ _ _ => True
  | Multi pos _ _ _ => pos <> []
  end.

(** A precondition other than the limit ceiling is violated. *)
Definition precondition_violated (call : tool_call) : Prop :=
  match call with
  | Single _ _ _ fp => fp ∉ ["recent"; "all-cs"]
  | Multi pos _ _ _ => pos = []
  end.

(** The details hold the value that broke the precondition. *)
Definition names_offending_value (call : tool_call) (d : dict) : Prop :=
  match call with
  | Single _ _ _ fp => VStr fp ∈ map snd d
  | Multi pos _ _ _ => VList (map VStr pos) ∈ map snd d
  end.

(** The arguments that identify what the caller asked about. *)
Definition identifying_arguments (call : tool_call) : dict :=
  match call with
  | Single p _ _ _ => [("paper_id", VStr p)]
  | Multi pos neg _ _ =>
      [("positive_ids", VList (map VStr pos));
       ("negative_ids", py_opt_list neg)]
  end.

Definition not_found_message (call : tool_call) : string :=
  match call with
  | Single _ _ _ _ => "Paper not found"
  | Multi _ _ _ _ => "One or more input papers not found"
  end.

(** An exception that is neither an HTTP status error nor a timeout. *)
Definition unclassified (e : exn) : Prop :=
  match e with
  | OtherException _ => True
  | _ => False
  end.

(** *** Readings of the specification that the handlers do not meet *)


(** Local validation settles a bad call before the limiter is asked. *)
Definition validates_before_acquire (env : Env) (call : tool_call) : Prop :=
  ~ valid call -> forall ep, EvAcquire ep ∉ trace (invoke env call).

(** Every limit above 500 yields the limit details. *)
Definition limit_rejected (env : Env) (call : tool_call) : Prop :=
  limit_of call > 500 ->
  (exists e, result (invoke env call) = Returned (Error e) /\
             kind e = ErrorType.VALIDATION /\
             details e = [("max_limit", VInt 500);
                          ("requested", VInt (limit_of call))]) /\
  network_calls (trace (invoke env call)) = 0%nat.

(** Every precondition violation yields details with the offending value. *)
Definition violation_detailed (env : Env) (call : tool_call) : Prop :=
  precondition_violated call ->
  (exists e, result (invoke env call) = Returned (Error e) /\
             kind e = ErrorType.VALIDATION /\
             names_offending_value call (details e)) /\
  network_calls (trace (invoke env call)) = 0%nat.

(** Every other non-2xx status yields details with status and body. *)
Definition status_and_body_in_details (env : Env) (call : tool_call) : Prop :=
  forall c req r,
    EvSend c req ∈ trace (invoke env call) ->
    upstream env req = Returned r ->
    is_success r = false -> status_code r <> 404 -> status_code r <> 429 ->
    exists e, result (invoke env call) = Returned (Error e) /\
              kind e = ErrorType.API_ERROR /\
              VInt (status_code r) ∈ map snd (details e) /\
              VStr (text r) ∈ map snd (details e).

(** ** Example environments *)

Definition papers_body : value := VDict [("recommendedPapers", VList [])].

Definition response_of (st : Z) (h : list (string * string)) (tx : string)
    : Response :=
  {| status_code := st; headers := h; text := tx; json := inr papers_body |}.

(** A process with [Config.TIMEOUT = 30] whose upstream always answers [o]. *)
Definition env_answering (key : option string) (o : outcome Response) : Env :=
  {| Config_TIMEOUT := 30; configured_api_key := key; upstream := fun _ => o |}.

(** The upstream answers 200 with a body of recommendations. *)
Definition env_ok : Env :=
  env_answering None (Returned (response_of 200 [] "")).


(** ** Further notions for the handlers *)

(** [d.get(k)] on an insertion-ordered dict. *)
Fixpoint dict_get (k : string) (d : dict) : option value :=
  match d with
  | [] => None
  | (k', v) :: d' => if String.eqb k k' then Some v else dict_get k d'
  end.

Definition fields_of (call : tool_call) : option string :=
  match call with
  | Single _ f _ _ => f
  | Multi _ _ f _ => f
  end.

(** What a call that passed the local checks does on the wire, in order. *)
Definition wire (env : Env) (call : tool_call) : list event :=
  let c := AsyncClient (Config_TIMEOUT env) in
  [EvAcquire "/recommendations"; EvClientNew c;
   EvSend c (request_of env call); EvClientClose c].

(** The line the last [except] clause logs for [e]. *)
Definition unexpected_log (e : exn) : event :=
  EvLogError ("Unexpected error in recommendations: " ++ str_exn e).


(** ** The server process ([server.py]) *)

Module Server.

(** What ends a call by an exception: an instance of [Exception], or one
    of the two [BaseException]s the module names.  Since Python 3.8
    [asyncio.CancelledError] is no [Exception]. *)
Inductive raised :=
| CancelledError
| KeyboardInterrupt
| ExceptionOf (e : exn).

Inductive signum := SIGTERM | SIGINT.

(** A task of the event loop, and what [await task] gives the awaiter
    once [task.cancel()] has been called. *)
Inductive ending (A : Type) :=
| Done (a : A)
| Thrown (x : raised).
Arguments Done {A} a.
Arguments Thrown {A} x.

Record task := {
  task_id : nat;
  awaited : ending unit
}.

Inductive event :=
| LogInfo (msg : string)
| LogError (msg : string)
| TaskCancel (id : nat)
| TaskAwait (id : nat)
| InitializeClient
| CleanupClient
| McpEnter
| McpExit
| McpRunAsync
| McpCleanup
| NewEventLoop
| SetEventLoop
| SetExceptionHandler
| AddSignalHandler (sig : signum)
| RunSleep0
| LoopClose
| CreateTaskShutdown.

Definition Run (A : Type) : Type := ending A * list event.

Definition ending_of {A} (m : Run A) : ending A := fst m.
Definition events {A} (m : Run A) : list event := snd m.

Definition done {A} (a : A) : Run A := (Done a, []).
Definition throw {A} (x : raised) : Run A := (Thrown x, []).

(** A call to a collaborator: it is recorded, and ends as [o] says. *)
Definition call (ev : event) (o : ending unit) : Run unit := (o, [ev]).

Definition and_then {A B} (m : Run A) (f : A -> Run B) : Run B :=
  match m with
  | (Done a, t) => let '(r, t') := f a in (r, (t ++ t')%list)
  | (Thrown x, t) => (Thrown x, t)
  end.

#[global] Instance Run_ret : MRet Run := @done.
#[global] Instance Run_bind : MBind Run := fun A B f m => and_then m f.

(** [try: m except ...: ...]: [clauses x] is the body of the first
    clause whose class matches [x], if there is one. *)
Definition try_except_clauses {A} (m : Run A)
    (clauses : raised -> option (Run A)) : Run A :=
  match m with
  | (Thrown x, t) =>
      match clauses x with
      | Some h => let '(r, t') := h in (r, (t ++ t')%list)
      | None => (Thrown x, t)
      end
  | (Done a, t) => (Done a, t)
  end.

(** [try: m finally: f]: [f] runs however [m] ends; what [f] raises
    replaces the ending of [m]. *)
Definition try_finally {A} (m : Run A) (f : Run unit) : Run A :=
  let '(r, t) := m in
  match f with
  | (Done _, t') => (r, (t ++ t')%list)
  | (Thrown y, t') => (Thrown y, (t ++ t')%list)
  end.

Definition logger_info (msg : string) : Run unit := call (LogInfo msg) (Done tt).
Definition logger_error (msg : string) : Run unit := call (LogError msg) (Done tt).

(** What the process meets when it runs: the tasks of the loop other
    than the current one, how the awaited collaborators end, and what
    [mcp.__aexit__] makes of the ending of its block. *)
Record Env := {
  other_tasks : list task;
  initialize_client_ends : ending unit;
  cleanup_client_ends : ending unit;
  mcp_aenter_ends : ending unit;
  mcp_aexit : ending unit -> ending unit;
  mcp_run_async_ends : ending unit;
  mcp_cleanup_ends : ending unit;
  add_signal_handler_ends : signum -> ending unit;
  sleep0_ends : ending unit;
  loop_close_ends : ending unit
}.

(** The [context] of the loop's exception handler: a dict whose values
    are texts or exception objects. *)
Inductive context_value :=
| CtxText (s : string)
| CtxException (e : exn).

Definition str_context_value (v : context_value) : string :=
  match v with
  | CtxText s => s
  | CtxException e => str_exn e
  end.

Fixpoint context_lookup (k : string) (d : list (string * context_value))
    : option context_value :=
  match d with
  | [] => None
  | (k', v) :: d' => if String.eqb k k' then Some v else context_lookup k d'
  end.

(** [d[k]]: raises [KeyError] for a missing key. *)
Definition getitem (d : list (string * context_value)) (k : string)
    : Run context_value :=
  match context_lookup k d with
  | Some v => done v
  | None => throw (ExceptionOf (OtherException ("'" ++ k ++ "'")))
  end.

(** [d.get(k, dflt)] *)
Definition get_or (d : list (string * context_value)) (k : string)
    (dflt : context_value) : context_value :=
  default dflt (context_lookup k d).

(** The loop over [tasks] in [shutdown]. *)
Fixpoint cancel_and_await (tasks : list task) : Run unit :=
  match tasks with
  | [] => done tt
  | t :: rest =>
      call (TaskCancel (task_id t)) (Done tt);;
      try_except_clauses (call (TaskAwait (task_id t)) (awaited t))
        (fun x => match x with
                  | CancelledError => Some (done tt)
                  | _ => None
                  end);;
      cancel_and_await rest
  end.

Definition shutdown (env : Env) : Run unit :=
  logger_info "Initiating graceful shutdown...";;
  (* Cancel all tasks *)
  let tasks := other_tasks env in
  cancel_and_await tasks;;
  (* Cleanup resources *)
  call CleanupClient (cleanup_client_ends env);;
  call McpCleanup (mcp_cleanup_ends env);;
  logger_info ("Cancelled " ++ str_int (Z.of_nat (length tasks)) ++ " tasks");;
  logger_info "Shutdown complete".

(** [handle_exception]: the body of the coroutine. *)
Definition handle_exception (context : list (string * context_value))
    : Run unit :=
  dflt ← getitem context "message";
  let msg := get_or context "exception" dflt in
  logger_error ("Caught exception: " ++ str_context_value msg);;
  call CreateTaskShutdown (Done tt).

Definition init_signal_handlers (env : Env) : Run unit :=
  call (AddSignalHandler SIGTERM) (add_signal_handler_ends env SIGTERM);;
  call (AddSignalHandler SIGINT) (add_signal_handler_ends env SIGINT);;
  logger_info "Signal handlers initialized".

(** The body of the [try] statement of [run_server]. *)
Definition run_server_try (env : Env) : Run unit :=
  (* Initialize HTTP client *)
  call InitializeClient (initialize_client_ends env);;
  (* Start the server *)
  logger_info "Starting Semantic Scholar Server";;
  call McpRunAsync (mcp_run_async_ends env).

(** The [try]/[except]/[finally] statement inside [async with mcp]. *)
Definition run_server_block (env : Env) : Run unit :=
  try_finally
    (try_except_clauses (run_server_try env)
       (fun x => match x with
                 | ExceptionOf e =>
                     Some (logger_error ("Server error: " ++ str_exn e);;
                           throw (ExceptionOf e))
                 | _ => None
                 end))
    (shutdown env).

(** [async with mcp: block]: the block runs once [mcp.__aenter__] has
    returned, and [mcp.__aexit__] decides the ending from the block's. *)
Definition async_with_mcp (env : Env) (block : Run unit) : Run unit :=
  call McpEnter (mcp_aenter_ends env);;
  let '(r, t) := block in
  (mcp_aexit env r, (t ++ [McpExit])%list).

Definition run_server (env : Env) : Run unit :=
  async_with_mcp env (run_server_block env).

(** The body of the outer [try] statement of [main];
    [loop.run_until_complete(run_server())] ends as [run_server] does.
    Creating the loop and installing the exception handler do not fail. *)
Definition main_try (env : Env) : Run unit :=
  (* Set up event loop with exception handler *)
  call NewEventLoop (Done tt);;
  call SetEventLoop (Done tt);;
  call SetExceptionHandler (Done tt);;
  (* Initialize signal handlers *)
  init_signal_handlers env;;
  (* Run the server *)
  run_server env.

(** The [finally] block of [main]. *)
Definition main_finally (env : Env) : Run unit :=
  try_except_clauses
    (call RunSleep0 (sleep0_ends env);;  (* Let pending tasks complete *)
     call LoopClose (loop_close_ends env))
    (fun x => match x with
              | ExceptionOf e =>
                  Some (logger_error
                          ("Error during final cleanup: " ++ str_exn e))
              | _ => None
              end);;
  logger_info "Server stopped".

Definition main (env : Env) : Run unit :=
  try_finally
    (try_except_clauses (main_try env)
       (fun x => match x with
                 | KeyboardInterrupt =>
                     Some (logger_info
                             "Received keyboard interrupt, shutting down...")
                 | ExceptionOf e =>
                     Some (logger_error ("Fatal error: " ++ str_exn e))
                 | CancelledError => None
                 end))
    (main_finally env).

(** *** Notions for the statements about the server *)

(** Awaiting the cancelled task gives control back to [shutdown]: the
    task has finished, or the wait ends with [CancelledError]. *)
Definition settles (t : task) : Prop :=
  awaited t = Done tt \/ awaited t = Thrown CancelledError.

Definition cancel_events (tasks : list task) : list event :=
  flat_map (fun t => [TaskCancel (task_id t); TaskAwait (task_id t)]) tasks.

(** What the loop of [shutdown] records: cancellations and waits. *)
Definition is_task_event (ev : event) : Prop :=
  match ev with
  | TaskCancel _ | TaskAwait _ => True
  | _ => False
  end.

(** What [shutdown] may record when it runs over [n] tasks. *)
Definition is_shutdown_event (n : nat) (ev : event) : Prop :=
  match ev with
  | TaskCancel _ | TaskAwait _ | CleanupClient | McpCleanup => True
  | LogInfo m =>
      m = "Initiating graceful shutdown..." \/
      m = "Cancelled " ++ str_int (Z.of_nat n) ++ " tasks" \/
      m = "Shutdown complete"
  | _ => False
  end.

(** The ending is no [BaseException] outside [Exception]. *)
Definition no_interrupt (o : ending unit) : Prop :=
  match o with
  | Thrown CancelledError | Thrown KeyboardInterrupt => False
  | _ => True
  end.

(** The line [run_server] logs when its [try] body ends as [o]. *)
Definition server_error_log (o : ending unit) : list event :=
  match o with
  | Thrown (ExceptionOf e) => [LogError ("Server error: " ++ str_exn e)]
  | _ => []
  end.

(** The line [main] logs when its [try] body ends as [o]. *)
Definition main_report (o : ending unit) : list event :=
  match o with
  | Thrown KeyboardInterrupt =>
      [LogInfo "Received keyboard interrupt, shutting down..."]
  | Thrown (ExceptionOf e) => [LogError ("Fatal error: " ++ str_exn e)]
  | _ => []
  end.

(** Example: one task that ends cancelled, one that has finished, and
    collaborators that all return. *)
Definition quiet_env : Env :=
  {| other_tasks := [{| task_id := 1; awaited := Thrown CancelledError |};
                     {| task_id := 2; awaited := Done tt |}];
     initialize_client_ends := Done tt;
     cleanup_client_ends := Done tt;
     mcp_aenter_ends := Done tt;
     mcp_aexit := fun r => r;
     mcp_run_async_ends := Done tt;
     mcp_cleanup_ends := Done tt;
     add_signal_handler_ends := fun _ => Done tt;
     sleep0_ends := Done tt;
     loop_close_ends := Done tt |}.

(** Example: as [quiet_env], but the second task ends with an error. *)
Definition failing_task_env : Env :=
  {| other_tasks := [{| task_id := 1; awaited := Thrown CancelledError |};
                     {| task_id := 2;
                        awaited := Thrown (ExceptionOf (OtherException "boom")) |};
                     {| task_id := 3; awaited := Done tt |}];
     initialize_client_ends := Done tt;
     cleanup_client_ends := Done tt;
     mcp_aenter_ends := Done tt;
     mcp_aexit := fun r => r;
     mcp_run_async_ends := Done tt;
     mcp_cleanup_ends := Done tt;
     add_signal_handler_ends := fun _ => Done tt;
     sleep0_ends := Done tt;
     loop_close_ends := Done tt |}.

(** Example: as [quiet_env], but the platform has no signal handlers. *)
Definition no_signals_env : Env :=
  {| other_tasks := [];
     initialize_client_ends := Done tt;
     cleanup_client_ends := Done tt;
     mcp_aenter_ends := Done tt;
     mcp_aexit := fun r => r;
     mcp_run_async_ends := Done tt;
     mcp_cleanup_ends := Done tt;
     add_signal_handler_ends :=
       fun _ => Thrown (ExceptionOf (OtherException "NotImplementedError"));
     sleep0_ends := Done tt;
     loop_close_ends := Done tt |}.

(** Example: as [quiet_env], but the client cannot be initialised. *)
Definition no_client_env : Env :=
  {| other_tasks := [];
     initialize_client_ends :=
       Thrown (ExceptionOf (OtherException "no network"));
     cleanup_client_ends := Done tt;
     mcp_aenter_ends := Done tt;
     mcp_aexit := fun r => r;
     mcp_run_async_ends := Done tt;
     mcp_cleanup_ends := Done tt;
     add_signal_handler_ends := fun _ => Done tt;
     sleep0_ends := Done tt;
     loop_close_ends := Done tt |}.

End Server.

(** ** Running the handlers *)

Ltac unfold_handlers :=
  unfold invoke, try_block, get_paper_recommendations_single,
    get_paper_recommendations_multi, single_body, multi_body,
    except_clauses, async_with_AsyncClient, client_get, client_post,
    client_send, raise_for_status, response_json, rate_limiter_acquire,
    logger_error, emit, try_except, mbind, M_bind, bind, mret, M_ret, ret,
    raise, result, trace in *.

Ltac unfold_request :=
  unfold request_of, with_fields, credential_headers in *.

(** Recognise the request of the call in the unfolded handler. *)
Ltac fold_request :=
  match goal with
  | Hup : upstream ?env ?rq = _ |- context [upstream ?env ?rq'] =>
      change rq' with rq; rewrite Hup
  end.

(** Follow every branch of a run recorded in hypothesis [H]. *)
Ltac split_run H :=
  repeat match type of H with
  | context [match upstream ?e ?r with _ => _ end] =>
      let o := fresh "o" in
      let Ho := fresh "Hup" in
      remember (upstream e r) as o eqn:Ho; destruct o; cbn in H
  | context [if ?b then _ else _] => destruct b eqn:?; cbn in H
  | context [match json ?r with _ => _ end] => destruct (json r) eqn:?; cbn in H
  | context [match ?x with
             | HTTPStatusError _ _ => _
             | TimeoutException _ => _
             | OtherException _ => _
             end] => destruct x; cbn in H
  end.

(** Follow every branch of the run in the goal. *)
Ltac split_goal :=
  repeat match goal with
  | |- context [match upstream ?e ?r with _ => _ end] =>
      destruct (upstream e r); cbn
  | |- context [if ?b then _ else _] => destruct b; cbn
  | |- context [match json ?r with _ => _ end] => destruct (json r); cbn
  | |- context [match ?x with
                | HTTPStatusError _ _ => _
                | TimeoutException _ => _
                | OtherException _ => _
                end] => destruct x; cbn
  end.

Ltac pick_event H :=
  repeat (apply elem_of_cons in H as [H | H]; [try discriminate |]);
  try (by apply elem_of_nil in H).

Lemma gtb_500_false (l : Z) : l <= 500 -> (l >? 500)%Z = false.
Proof. intros H. destruct (Z.gtb_spec l 500); [lia | reflexivity]. Qed.

Lemma gtb_500_true (l : Z) : 500 < l -> (l >? 500)%Z = true.
Proof. intros H. destruct (Z.gtb_spec l 500); [reflexivity | lia]. Qed.

Lemma pool_check_true (fp : string) :
  fp ∈ ["recent"; "all-cs"] ->
  bool_decide (fp ∈ ["recent"; "all-cs"]) = true.
Proof. intros H. by apply bool_decide_eq_true. Qed.

Lemma pool_check_false (fp : string) :
  fp ∉ ["recent"; "all-cs"] ->
  bool_decide (fp ∈ ["recent"; "all-cs"]) = false.
Proof. intros H. by apply bool_decide_eq_false. Qed.

Lemma oldest_is_no_pool : "oldest" ∉ ["recent"; "all-cs"].
Proof.
  intros Hin.
  repeat (apply elem_of_cons in Hin as [Hin | Hin]; [discriminate |]).
  by apply elem_of_nil in Hin.
Qed.

Lemma recent_is_a_pool : "recent" ∈ ["recent"; "all-cs"].
Proof. apply elem_of_cons. by left. Qed.

Lemma send_not_in_acquire (c : client) (req : Request) (ep : string) :
  EvSend c req ∉ [EvAcquire ep].
Proof. intros H. apply list_elem_of_singleton in H. discriminate. Qed.

(** Enter the path of a call whose arguments passed the local checks. *)
Ltac enter_valid call Hv :=
  destruct call as [?p ?f ?l ?fp | pos ?neg ?f ?l]; destruct Hv as [? ?];
  unfold_handlers; cbn in *;
  [ rewrite gtb_500_false, pool_check_true by assumption
  | destruct pos; [done |]; rewrite gtb_500_false by assumption ];
  cbn.

(** A request appears in the trace only for a valid call, and then it is
    [request_of], sent through a client built for this invocation. *)
Lemma sent_inv (env : Env) (call : tool_call) (c : client) (req : Request) :
  EvSend c req ∈ trace (invoke env call) ->
  valid call /\ c = AsyncClient (Config_TIMEOUT env) /\ req = request_of env call.
Proof.
  destruct call as [p f l fp | pos neg f l];
    unfold_handlers; unfold_request; cbn.
  - destruct (Z.gtb_spec l 500) as [Hl | Hl]; cbn.
    { intros H. by apply send_not_in_acquire in H. }
    destruct (decide (fp ∈ ["recent"; "all-cs"])) as [Hp | Hp].
    2:{ rewrite (pool_check_false _ Hp). cbn.
        intros H. by apply send_not_in_acquire in H. }
    rewrite (pool_check_true _ Hp). cbn.
    intros H. split; [split; [lia | done] |].
    all: split_run H; pick_event H; try (by injection H as -> ->).
  - destruct pos as [| x pos]; cbn.
    { intros H. by apply send_not_in_acquire in H. }
    destruct (Z.gtb_spec l 500) as [Hl | Hl]; cbn.
    { intros H. by apply send_not_in_acquire in H. }
    intros H. split; [split; [done | lia] |].
    all: split_run H; pick_event H; try (by injection H as -> ->).
Qed.

(** A valid call sends its request. *)
Lemma valid_sends (env : Env) (call : tool_call) :
  valid call ->
  EvSend (AsyncClient (Config_TIMEOUT env)) (request_of env call)
    ∈ trace (invoke env call).
Proof.
  intros Hv. enter_valid call Hv.
  all: unfold_request; cbn; split_goal.
  all: apply elem_of_cons; right; apply elem_of_cons; right;
    apply elem_of_cons; by left.
Qed.

(** A call that fails a local check stops after the rate limiter. *)
Lemma invalid_trace (env : Env) (call : tool_call) :
  ~ valid call -> trace (invoke env call) = [EvAcquire "/recommendations"].
Proof.
  destruct call as [p f l fp | pos neg f l]; unfold_handlers; cbn; intros Hv.
  - destruct (Z.gtb_spec l 500) as [Hl | Hl]; cbn; [done |].
    destruct (decide (fp ∈ ["recent"; "all-cs"])) as [Hp | Hp].
    + destruct Hv. split; [lia | done].
    + by rewrite (pool_check_false _ Hp).
  - destruct pos as [| x pos]; cbn; [done |].
    destruct (Z.gtb_spec l 500) as [Hl | Hl]; cbn; [done |].
    destruct Hv. split; [done | lia].
Qed.

(** ... and answers with a VALIDATION envelope. *)
Lemma invalid_result (env : Env) (call : tool_call) :
  ~ valid call ->
  exists e,
    result (invoke env call) = Returned (Error e) /\
    kind e = ErrorType.VALIDATION.
Proof.
  destruct call as [p f l fp | pos neg f l]; unfold_handlers; cbn; intros Hv.
  - destruct (Z.gtb_spec l 500) as [Hl | Hl]; cbn; [by eexists |].
    destruct (decide (fp ∈ ["recent"; "all-cs"])) as [Hp | Hp].
    + destruct Hv. split; [lia | done].
    + rewrite (pool_check_false _ Hp). by eexists.
  - destruct pos as [| x pos]; cbn; [by eexists |].
    destruct (Z.gtb_spec l 500) as [Hl | Hl]; cbn; [by eexists |].
    destruct Hv. split; [done | lia].
Qed.

(** Every run starts by acquiring the limiter for ["/recommendations"]. *)
Lemma acquire_first (env : Env) (call : tool_call) :
  exists t, trace (invoke env call) = EvAcquire "/recommendations" :: t.
Proof.
  destruct call as [p f l fp | pos neg f l]; unfold_handlers; cbn.
  all: split_goal; by eexists.
Qed.

Lemma violated_not_valid (call : tool_call) :
  precondition_violated call -> ~ valid call.
Proof. destruct call; cbn; intros H [H1 H2]; done. Qed.

Lemma valid_dec (call : tool_call) : valid call \/ ~ valid call.
Proof.
  destruct call as [p f l fp | pos neg f l]; cbn.
  - destruct (decide (l <= 500)) as [Hl | Hl];
      destruct (decide (fp ∈ ["recent"; "all-cs"])) as [Hp | Hp];
      first [by left | by right; intros [? ?]].
  - destruct pos as [| x pos]; [by right; intros [? ?] |].
    destruct (decide (l <= 500)) as [Hl | Hl];
      first [by left | by right; intros [? ?]].
Qed.

(** [bool(get_api_key())] tells whether the request carried the key. *)
Lemma has_credential_request (env : Env) (call : tool_call) :
  has_credential (request_of env call) = truthy_str (get_api_key env).
Proof.
  destruct call; unfold has_credential, request_of, credential_headers; cbn;
    by destruct (truthy_str (get_api_key env)).
Qed.

(** *** The [try]/[except] structure *)

Lemma try_except_returned {A} (m : M A) (h : exn -> M A) (a : A) :
  result m = Returned a -> try_except m h = m.
Proof. destruct m as [[a' | e |] t]; cbn; intros H; by inversion H. Qed.


Lemma except_clauses_return (env : Env) (e : exn) :
  exists r, result (except_clauses env e) = Returned r.
Proof.
  destruct e as [m r | m | m]; cbn; [| by eexists ..].
  destruct (status_code r =? 429)%Z; by eexists.
Qed.


(** Whatever request a handler sends goes through a client that the
    same invocation built, never through the process-wide one. *)
Lemma sends_through_own_client (env : Env) (call : tool_call)
    (c : client) (req : Request) :
  EvSend c req ∈ trace (invoke env call) ->
  c <> shared_client /\ EvClientNew c ∈ trace (invoke env call).
Proof.
  intros H. destruct (sent_inv _ _ _ _ H) as (Hv & -> & _).
  split; [done |]. clear H.
  enter_valid call Hv.
  all: split_goal; apply elem_of_cons; right; apply elem_of_cons; by left.
Qed.

(** A 200 answer is handed back as it was decoded. *)
Lemma success_body_unchanged (env : Env) (call : tool_call)
    (c : client) (req : Request) (r : Response) (v : value) :
  EvSend c req ∈ trace (invoke env call) ->
  upstream env req = Returned r ->
  status_code r = 200 -> json r = inr v ->
  result (invoke env call) = Returned (Body v).
Proof.
  intros Hs Hup Hst Hj. apply sent_inv in Hs as (Hv & -> & ->).
  assert (H404 : (status_code r =? 404)%Z = false) by (rewrite Hst; done).
  assert (Hok : is_success r = true) by (unfold is_success; rewrite Hst; done).
  enter_valid call Hv.
  all: fold_request; cbn; rewrite H404, Hok; cbn; by rewrite Hj.
Qed.

(** ** The shared client (C1) *)

(** C1: the claim is that every request of the two handlers goes through
    the process-wide client created at startup and that no invocation
    builds a client of its own.  The handlers do otherwise: a call of
    [get_paper_recommendations_single] with default arguments builds an
    [httpx.AsyncClient] with [Config.TIMEOUT], sends its one request
    through it, and closes it again. *)
Theorem recommendation_builds_client_per_call :
  trace (invoke env_ok (Single "649def34" None 100 "recent"))
  = [EvAcquire "/recommendations";
     EvClientNew (AsyncClient 30);
     EvSend (AsyncClient 30)
       {| req_method := GET;
          req_url :=
            "https://api.semanticscholar.org/recommendations/v1/papers/forpaper/649def34";
          req_params := [("limit", VInt 100); ("from", VStr "recent")];
          req_json := None;
          req_headers := [] |};
     EvClientClose (AsyncClient 30)].
Proof. reflexivity. Qed.

(** ** Order of validation and rate limiting (C2) *)

(** C2, as stated, fails: with [limit = 501] the limiter has been
    acquired by the time the VALIDATION envelope is returned. *)
Lemma acquire_precedes_validation :
  ~ validates_before_acquire env_ok (Single "649def34" None 501 "recent").
Proof.
  intros H. apply (H ltac:(cbn; lia) "/recommendations").
  apply elem_of_cons. by left.
Qed.

(** C2, amended: every invocation first acquires the rate limiter for
    ["/recommendations"]; local validation comes next, and on a violation
    the VALIDATION envelope is returned with nothing else done: no client
    is built and no request is sent. *)
Theorem acquire_then_validate (env : Env) (call : tool_call) :
  (exists t, trace (invoke env call) = EvAcquire "/recommendations" :: t) /\
  (~ valid call ->
   (exists e, result (invoke env call) = Returned (Error e) /\
              kind e = ErrorType.VALIDATION) /\
   trace (invoke env call) = [EvAcquire "/recommendations"]).
Proof.
  split; [apply acquire_first |].
  intros Hv. split; [by apply invalid_result | by apply invalid_trace].
Qed.

(** An empty list of positive ids is rejected right after the limiter. *)
Lemma acquire_then_validate_witness :
  let call := Multi [] None None 100 in
  (exists e, result (invoke env_ok call) = Returned (Error e) /\
             kind e = ErrorType.VALIDATION) /\
  trace (invoke env_ok call) = [EvAcquire "/recommendations"].
Proof.
  intros call.
  apply (acquire_then_validate env_ok call).
  cbn. intros [H _]. by apply H.
Defined.

(** ** No exception leaves a handler (C3) *)





(** ** The limit ceiling (C4) *)

(** C4, as stated, fails for the multi operation: with an empty list of
    positive ids and [limit = 501] the envelope is the one of the empty
    list, whose details are empty. *)
Lemma limit_details_absent_without_positive_ids :
  ~ limit_rejected env_ok (Multi [] None None 501).
Proof.
  intros H. destruct (H ltac:(cbn; lia)) as [(e & He & _ & Hd) _].
  cbn in He. inversion He; subst. discriminate.
Qed.

(** C4, amended: a call of the single operation with a limit above 500,
    and a call of the multi operation with a limit above 500 and a
    non-empty list of positive ids, returns the VALIDATION envelope with
    details [{max_limit: 500, requested: limit}] and sends no request. *)
Theorem limit_over_500_rejected (env : Env) (call : tool_call) :
  limit_of call > 500 -> reaches_limit_check call ->
  result (invoke env call) = Returned (Error (limit_envelope (limit_of call))) /\
  network_calls (trace (invoke env call)) = 0%nat.
Proof.
  intros Hl Hr.
  destruct call as [p f l fp | pos neg f l]; unfold_handlers; cbn in *.
  - by rewrite gtb_500_true by lia.
  - destruct pos; [done |]. cbn. by rewrite gtb_500_true by lia.
Qed.

(** A limit of 501 against the ceiling of 500. *)
Lemma limit_over_500_rejected_witness :
  let call := Single "649def34" None 501 "recent" in
  result (invoke env_ok call)
    = Returned (Error {| kind := ErrorType.VALIDATION;
                         message := "Cannot request more than 500 recommendations";
                         details := [("max_limit", VInt 500);
                                     ("requested", VInt 501)] |}) /\
  network_calls (trace (invoke env_ok call)) = 0%nat.
Proof.
  intros call.
  apply (limit_over_500_rejected env_ok call); [cbn; lia | exact I].
Defined.

(** ** Other local preconditions (C5) *)

(** C5, as stated, fails: for an unknown pool the details list the valid
    pools and not the value that was passed, and for an empty list of
    positive ids the details are empty. *)
Lemma violation_details_omit_offending_value :
  ~ violation_detailed env_ok (Single "649def34" None 100 "oldest") /\
  ~ violation_detailed env_ok (Multi [] None None 100).
Proof.
  split; intros H.
  - destruct (H oldest_is_no_pool) as [(e & He & _ & Hn) _].
    cbn in He. inversion He; subst. cbn in Hn.
    apply elem_of_cons in Hn as [Hn | Hn]; [discriminate |].
    by apply elem_of_nil in Hn.
  - destruct (H eq_refl) as [(e & He & _ & Hn) _].
    cbn in He. inversion He; subst. cbn in Hn.
    by apply elem_of_nil in Hn.
Qed.

(** C5, amended: an empty [positive_paper_ids] list in the multi
    operation, or a [from_pool] outside ["recent"], ["all-cs"] in the
    single operation, yields a VALIDATION envelope and no request.  For
    the empty list the message is "Must provide at least one positive
    paper ID" and the details are empty; for the pool, when the limit is
    within its ceiling, the message is "Invalid paper pool specified" and
    the details are [{valid_pools: ["recent", "all-cs"]}]. *)
Theorem precondition_violation_rejected (env : Env) (call : tool_call) :
  precondition_violated call ->
  (exists e, result (invoke env call) = Returned (Error e) /\
             kind e = ErrorType.VALIDATION) /\
  network_calls (trace (invoke env call)) = 0%nat /\
  match call with
  | Single _ _ l _ =>
      l <= 500 ->
      result (invoke env call)
        = Returned (Error {| kind := ErrorType.VALIDATION;
                             message := "Invalid paper pool specified";
                             details := [("valid_pools",
                                          VList [VStr "recent"; VStr "all-cs"])] |})
  | Multi _ _ _ _ =>
      result (invoke env call)
        = Returned (Error {| kind := ErrorType.VALIDATION;
                             message := "Must provide at least one positive paper ID";
                             details := [] |})
  end.
Proof.
  intros Hp. pose proof (violated_not_valid _ Hp) as Hv.
  split; [by apply invalid_result |].
  split; [by rewrite invalid_trace |].
  destruct call as [p f l fp | pos neg f l]; unfold_handlers; cbn in *.
  - intros Hl. by rewrite gtb_500_false, pool_check_false.
  - by subst.
Qed.

(** The pool ["oldest"] does not exist. *)
Lemma precondition_violation_rejected_witness :
  let call := Single "649def34" None 100 "oldest" in
  (exists e, result (invoke env_ok call) = Returned (Error e) /\
             kind e = ErrorType.VALIDATION) /\
  network_calls (trace (invoke env_ok call)) = 0%nat /\
  result (invoke env_ok call)
    = Returned (Error {| kind := ErrorType.VALIDATION;
                         message := "Invalid paper pool specified";
                         details := [("valid_pools",
                                      VList [VStr "recent"; VStr "all-cs"])] |}).
Proof.
  intros call.
  destruct (precondition_violation_rejected env_ok call oldest_is_no_pool)
    as (H1 & H2 & H3).
  split; [exact H1 |]. split; [exact H2 |]. apply H3. lia.
Defined.

(** ** Classifying the upstream answer (C6 to C9) *)

(** C6: when the upstream answers a handler's request with status 404,
    the handler returns a VALIDATION envelope, not an API_ERROR one,
    whose details echo the identifying arguments: [paper_id] for the
    single operation, the positive and negative id lists for the multi
    operation. *)
Theorem not_found_is_validation (env : Env) (call : tool_call)
    (c : client) (req : Request) (r : Response) :
  EvSend c req ∈ trace (invoke env call) ->
  upstream env req = Returned r ->
  status_code r = 404 ->
  result (invoke env call)
    = Returned (Error {| kind := ErrorType.VALIDATION;
                         message := not_found_message call;
                         details := identifying_arguments call |}).
Proof.
  intros Hs Hup Hst. apply sent_inv in Hs as (Hv & -> & ->).
  assert (H404 : (status_code r =? 404)%Z = true) by (rewrite Hst; done).
  enter_valid call Hv; fold_request; cbn; by rewrite H404.
Qed.

(** A 404 for the multi operation echoes both id lists. *)
Lemma not_found_is_validation_witness :
  let env := env_answering None (Returned (response_of 404 [] "not found")) in
  let call := Multi ["649def34"] None None 100 in
  result (invoke env call)
    = Returned (Error {| kind := ErrorType.VALIDATION;
                         message := "One or more input papers not found";
                         details := [("positive_ids", VList [VStr "649def34"]);
                                     ("negative_ids", VNone)] |}).
Proof.
  intros env call.
  apply (not_found_is_validation env call
           (AsyncClient 30) (request_of env call)
           (response_of 404 [] "not found")).
  - apply (valid_sends env call). split; [done | lia].
  - reflexivity.
  - reflexivity.
Defined.

(** C7: when the upstream answers a handler's request with status 429,
    the handler returns a RATE_LIMIT envelope whose details hold the
    value of the [retry-after] header under [retry_after] and, under
    [authenticated], whether the request carried a credential. *)
Theorem too_many_requests_is_rate_limit (env : Env) (call : tool_call)
    (c : client) (req : Request) (r : Response) :
  EvSend c req ∈ trace (invoke env call) ->
  upstream env req = Returned r ->
  status_code r = 429 ->
  result (invoke env call)
    = Returned (Error
        {| kind := ErrorType.RATE_LIMIT;
           message :=
             "Rate limit exceeded. Consider using an API key for higher limits.";
           details :=
             [("retry_after", headers_get "retry-after" (headers r));
              ("authenticated", VBool (has_credential req))] |}).
Proof.
  intros Hs Hup Hst. apply sent_inv in Hs as (Hv & -> & ->).
  rewrite has_credential_request.
  assert (H404 : (status_code r =? 404)%Z = false) by (rewrite Hst; done).
  assert (Hok : is_success r = false) by (unfold is_success; rewrite Hst; done).
  assert (H429 : (status_code r =? 429)%Z = true) by (rewrite Hst; done).
  enter_valid call Hv.
  all: fold_request; cbn; rewrite H404, Hok; cbn; rewrite H429; reflexivity.
Qed.

(** A 429 with header [retry-after: 30], sent with a key. *)
Lemma too_many_requests_is_rate_limit_witness :
  let env := env_answering (Some "secret")
               (Returned (response_of 429 [("retry-after", "30")] "")) in
  let call := Single "649def34" None 100 "recent" in
  result (invoke env call)
    = Returned (Error
        {| kind := ErrorType.RATE_LIMIT;
           message :=
             "Rate limit exceeded. Consider using an API key for higher limits.";
           details := [("retry_after", VStr "30");
                       ("authenticated", VBool true)] |}).
Proof.
  intros env call.
  apply (too_many_requests_is_rate_limit env call
           (AsyncClient 30) (request_of env call)
           (response_of 429 [("retry-after", "30")] "")).
  - apply (valid_sends env call). split; [lia | exact recent_is_a_pool].
  - reflexivity.
  - reflexivity.
Defined.

(** C8, as stated, fails: for a 500 answer with body "boom" the details
    are [{response: "boom"}]; the status code is not among them. *)
Lemma status_code_not_in_details :
  ~ status_and_body_in_details
      (env_answering None (Returned (response_of 500 [] "boom")))
      (Single "649def34" None 100 "recent").
Proof.
  intros H.
  set (env := env_answering None (Returned (response_of 500 [] "boom"))) in *.
  set (call := Single "649def34" None 100 "recent") in *.
  destruct (H (AsyncClient 30) (request_of env call) (response_of 500 [] "boom"))
    as (e & He & _ & Hst & _); try done.
  { apply (valid_sends env call). split; [lia | exact recent_is_a_pool]. }
  cbn in He. inversion He; subst. cbn in Hst.
  apply elem_of_cons in Hst as [Hst | Hst]; [discriminate |].
  by apply elem_of_nil in Hst.
Qed.

(** C8, amended: when the upstream answers a handler's request with a
    non-2xx status other than 404 and 429, the handler returns an
    API_ERROR envelope whose message "HTTP error <status>" holds the
    numeric status code and whose details hold the raw response body
    text under [response]. *)
Theorem other_status_is_api_error (env : Env) (call : tool_call)
    (c : client) (req : Request) (r : Response) :
  EvSend c req ∈ trace (invoke env call) ->
  upstream env req = Returned r ->
  is_success r = false -> status_code r <> 404 -> status_code r <> 429 ->
  result (invoke env call)
    = Returned (Error
        {| kind := ErrorType.API_ERROR;
           message := "HTTP error " ++ str_int (status_code r);
           details := [("response", VStr (text r))] |}).
Proof.
  intros Hs Hup Hok H404 H429. apply sent_inv in Hs as (Hv & -> & ->).
  apply Z.eqb_neq in H404, H429.
  enter_valid call Hv.
  all: fold_request; cbn; rewrite H404, Hok; cbn; rewrite H429; reflexivity.
Qed.

(** A 500 answer with body "boom". *)
Lemma other_status_is_api_error_witness :
  let env := env_answering None (Returned (response_of 500 [] "boom")) in
  let call := Single "649def34" None 100 "recent" in
  result (invoke env call)
    = Returned (Error {| kind := ErrorType.API_ERROR;
                         message := "HTTP error 500";
                         details := [("response", VStr "boom")] |}).
Proof.
  intros env call.
  apply (other_status_is_api_error env call
           (AsyncClient 30) (request_of env call) (response_of 500 [] "boom")).
  - apply (valid_sends env call). split; [lia | exact recent_is_a_pool].
  - reflexivity.
  - reflexivity.
  - cbn. lia.
  - cbn. lia.
Defined.

(** X21: when the await of a handler's request raises
    [httpx.TimeoutException], the handler returns a TIMEOUT envelope
    whose message holds the value of [Config.TIMEOUT] and whose details
    are empty, and the request went through a client built with
    [timeout=Config.TIMEOUT].  (C9 asks in addition that the operation
    never hangs; the embedding has no clock, and that half is not
    stated.) *)
Theorem timeout_is_reported (env : Env) (call : tool_call)
    (c : client) (req : Request) (m : string) :
  EvSend c req ∈ trace (invoke env call) ->
  upstream env req = Raised (TimeoutException m) ->
  c = AsyncClient (Config_TIMEOUT env) /\
  result (invoke env call)
    = Returned (Error
        {| kind := ErrorType.TIMEOUT;
           message := "Request timed out after "
                        ++ str_int (Config_TIMEOUT env) ++ " seconds";
           details := [] |}).
Proof.
  intros Hs Hup. apply sent_inv in Hs as (Hv & -> & ->).
  split; [done |].
  enter_valid call Hv; by fold_request.
Qed.

(** A read that times out after the configured 30 seconds. *)
Lemma timeout_is_reported_witness :
  let env := env_answering None (Raised (TimeoutException "read timeout")) in
  let call := Multi ["649def34"] (Some ["ARXIV:2106.15928"]) None 100 in
  AsyncClient 30 = AsyncClient 30 /\
  result (invoke env call)
    = Returned (Error {| kind := ErrorType.TIMEOUT;
                         message := "Request timed out after 30 seconds";
                         details := [] |}).
Proof.
  intros env call.
  apply (timeout_is_reported env call
           (AsyncClient 30) (request_of env call) "read timeout").
  - apply (valid_sends env call). split; [done | lia].
  - reflexivity.
Defined.

(** ** The request body of the multi operation (C10) *)

(** C10: when [negative_paper_ids] is omitted, [None] or empty, the JSON
    body of the request of [get_paper_recommendations_multi] holds
    [positivePaperIds], the list supplied, and [negativePaperIds], the
    empty list; and such a request is sent whenever the arguments pass
    the local checks. *)
Theorem negative_ids_default_to_empty_list (env : Env)
    (pos : list string) (neg : option (list string))
    (fields : option string) (limit : Z) :
  neg = None \/ neg = Some [] ->
  (forall c req,
     EvSend c req
       ∈ trace (get_paper_recommendations_multi env pos neg fields limit) ->
     req_json req = Some (VDict [("positivePaperIds", VList (map VStr pos));
                                 ("negativePaperIds", VList [])])) /\
  (pos <> [] -> limit <= 500 ->
   exists c req,
     EvSend c req
       ∈ trace (get_paper_recommendations_multi env pos neg fields limit)).
Proof.
  intros Hn. split.
  - intros c req Hs.
    apply (sent_inv env (Multi pos neg fields limit)) in Hs as (_ & _ & ->).
    by destruct Hn as [-> | ->].
  - intros Hp Hl. eexists _, _.
    by apply (valid_sends env (Multi pos neg fields limit)).
Qed.

(** One positive id and no negative ids. *)
Lemma negative_ids_default_to_empty_list_witness :
  (forall c req,
     EvSend c req
       ∈ trace (get_paper_recommendations_multi env_ok ["649def34"] None None 100) ->
     req_json req = Some (VDict [("positivePaperIds", VList [VStr "649def34"]);
                                 ("negativePaperIds", VList [])])) /\
  (exists c req,
     EvSend c req
       ∈ trace (get_paper_recommendations_multi env_ok ["649def34"] None None 100)).
Proof.
  destruct (negative_ids_default_to_empty_list env_ok ["649def34"] None None 100)
    as [H1 H2]; [by left |].
  split; [exact H1 |]. apply H2; [done | lia].
Defined.

(** ** More on the handlers *)

Ltac close_shape :=
  first
    [ by (exists []; split; [reflexivity | left])
    | by (eexists [_]; split; [reflexivity |]; right; eexists; done) ].

(** The trace of a call that passed the local checks: the wire events,
    then at most the log line of the last [except] clause. *)
Lemma valid_run_shape (env : Env) (call : tool_call) :
  valid call ->
  exists log,
    trace (invoke env call) = (wire env call ++ log)%list /\
    (log = [] \/
     exists e, result (try_block env call) = Raised e /\ unclassified e /\
               log = [unexpected_log e]).
Proof.
  intros Hv. unfold wire, unexpected_log. enter_valid call Hv.
  all: unfold_request; cbn; split_goal.
  all: close_shape.
Qed.

(** X1: a call that passes the local checks acquires the limiter, builds
    a client, sends one request through it and closes that client, in
    this order and however the request ends (answer, error status,
    timeout or any other exception); whatever follows in the trace is
    logging only. *)
Theorem client_closed_after_request (env : Env) (call : tool_call) :
  valid call ->
  exists log,
    trace (invoke env call) = (wire env call ++ log)%list /\
    Forall (fun ev => exists m, ev = EvLogError m) log.
Proof.
  intros Hv. destruct (valid_run_shape env call Hv) as (log & Ht & Hlog).
  exists log. split; [done |].
  destruct Hlog as [-> | (e & _ & _ & ->)]; [constructor |].
  constructor; [by eexists | constructor].
Qed.

(** A request that times out still leaves the client closed. *)
Lemma client_closed_after_request_witness :
  let env := env_answering None (Raised (TimeoutException "read timeout")) in
  let call := Multi ["649def34"] None None 100 in
  exists log,
    trace (invoke env call) = (wire env call ++ log)%list /\
    Forall (fun ev => exists m, ev = EvLogError m) log.
Proof.
  intros env call.
  apply (client_closed_after_request env call). split; [done | lia].
Defined.


(** X2: an invocation sends at most one request, and it sends exactly one
    precisely when its arguments pass the local checks; there is no
    retry, whatever the upstream answers. *)
Theorem one_request_iff_valid (env : Env) (call : tool_call) :
  (network_calls (trace (invoke env call)) <= 1)%nat /\
  (network_calls (trace (invoke env call)) = 1%nat <-> valid call).
Proof.
  destruct (valid_dec call) as [Hv | Hv].
  - destruct (valid_run_shape env call Hv) as (log & -> & Hlog).
    assert (network_calls (wire env call ++ log) = 1%nat) as ->; [| by split].
    destruct Hlog as [-> | (e & _ & _ & ->)]; reflexivity.
  - rewrite (invalid_trace env call Hv). cbn. split; [lia |].
    split; [discriminate | done].
Qed.

(** A limit of exactly 500 passes. *)
Lemma one_request_iff_valid_witness :
  network_calls (trace (invoke env_ok (Multi ["649def34"] None None 500))) = 1%nat.
Proof.
  apply (proj2 (one_request_iff_valid env_ok (Multi ["649def34"] None None 500))).
  split; [done | lia].
Defined.

(** X3: a handler logs an error only when its [try] block raised an
    exception that is neither an HTTP status error nor a timeout, and
    the line is "Unexpected error in recommendations: " followed by
    [str(e)]; validation failures, 404, 429, other statuses and
    timeouts are not logged. *)
Theorem logged_only_when_unclassified (env : Env) (call : tool_call) (m : string) :
  EvLogError m ∈ trace (invoke env call) ->
  exists e, result (try_block env call) = Raised e /\ unclassified e /\
            m = "Unexpected error in recommendations: " ++ str_exn e.
Proof.
  intros Hm. destruct (valid_dec call) as [Hv | Hv].
  - destruct (valid_run_shape env call Hv) as (log & Ht & Hlog).
    rewrite Ht in Hm. apply elem_of_app in Hm as [Hm | Hm].
    { unfold wire in Hm. pick_event Hm. }
    destruct Hlog as [-> | (e & He & Hu & ->)].
    { by apply elem_of_nil in Hm. }
    apply list_elem_of_singleton in Hm. injection Hm as ->.
    by exists e.
  - rewrite (invalid_trace env call Hv) in Hm. pick_event Hm.
Qed.

(** A refused connection is logged. *)
Lemma logged_only_when_unclassified_witness :
  let env := env_answering None (Raised (OtherException "connection refused")) in
  let call := Single "649def34" None 100 "recent" in
  exists e, result (try_block env call) = Raised e /\ unclassified e /\
            "Unexpected error in recommendations: connection refused"
              = "Unexpected error in recommendations: " ++ str_exn e.
Proof.
  intros env call.
  apply (logged_only_when_unclassified env call).
  cbn. do 4 (apply elem_of_cons; right). apply elem_of_cons. by left.
Defined.

Lemma success_not_404 (r : Response) :
  is_success r = true -> (status_code r =? 404)%Z = false.
Proof.
  unfold is_success. intros H. apply andb_prop in H as [_ H].
  apply Z.leb_le in H. apply Z.eqb_neq. lia.
Qed.

(** X4: a handler returns a decoded body [v], and not an envelope,
    exactly when the arguments pass the local checks and the upstream
    answers the request with a 2xx status whose body decodes to [v];
    the body is handed back unchanged. *)
Theorem body_returned_iff (env : Env) (call : tool_call) (v : value) :
  result (invoke env call) = Returned (Body v) <->
  valid call /\
  exists r, upstream env (request_of env call) = Returned r /\
            is_success r = true /\ json r = inr v.
Proof.
  split.
  - intros H. destruct (valid_dec call) as [Hv | Hv].
    2:{ destruct (invalid_result env call Hv) as (e & He & _). congruence. }
    split; [done |].
    destruct (upstream env (request_of env call)) as [r0 | e0 |] eqn:Hup.
    + exists r0. split; [done |]. revert H.
      enter_valid call Hv.
      all: fold_request; cbn; split_goal; intros [=]; by subst.
    + exfalso. revert H.
      enter_valid call Hv.
      all: fold_request; cbn; split_goal; discriminate.
    + exfalso. revert H.
      enter_valid call Hv.
      all: fold_request; cbn; discriminate.
  - intros (Hv & r & Hup & Hok & Hj).
    pose proof (success_not_404 r Hok) as H404.
    enter_valid call Hv.
    all: fold_request; cbn; rewrite H404, Hok; cbn; by rewrite Hj.
Qed.

(** A 200 answer with a list of recommendations. *)
Lemma body_returned_iff_witness :
  result (invoke env_ok (Single "649def34" None 100 "recent"))
    = Returned (Body papers_body).
Proof.
  apply (proj2 (body_returned_iff env_ok (Single "649def34" None 100 "recent")
                  papers_body)).
  split; [split; [lia | exact recent_is_a_pool] |].
  exists (response_of 200 [] ""). done.
Defined.

(** X5: when the upstream answers a handler's request with a 2xx status
    but [response.json()] fails, the handler returns the API_ERROR
    envelope "Failed to get recommendations" with the decoding error
    under [error], and logs it. *)
Theorem undecodable_body_is_api_error (env : Env) (call : tool_call)
    (c : client) (req : Request) (r : Response) (m : string) :
  EvSend c req ∈ trace (invoke env call) ->
  upstream env req = Returned r ->
  is_success r = true -> json r = inl m ->
  result (invoke env call)
    = Returned (Error {| kind := ErrorType.API_ERROR;
                         message := "Failed to get recommendations";
                         details := [("error", VStr m)] |}) /\
  EvLogError ("Unexpected error in recommendations: " ++ m)
    ∈ trace (invoke env call).
Proof.
  intros Hs Hup Hok Hj. apply sent_inv in Hs as (Hv & -> & ->).
  pose proof (success_not_404 r Hok) as H404.
  enter_valid call Hv.
  all: fold_request; cbn; rewrite H404, Hok; cbn; rewrite Hj; cbn.
  all: split; [done |]; do 4 (apply elem_of_cons; right);
    apply elem_of_cons; by left.
Qed.

(** A 200 answer holding HTML. *)
Lemma undecodable_body_is_api_error_witness :
  let r := {| status_code := 200; headers := []; text := "<html>";
              json := inl "Expecting value: line 1 column 1 (char 0)" |} in
  let env := env_answering None (Returned r) in
  let call := Single "649def34" None 100 "recent" in
  result (invoke env call)
    = Returned (Error {| kind := ErrorType.API_ERROR;
                         message := "Failed to get recommendations";
                         details := [("error",
                           VStr "Expecting value: line 1 column 1 (char 0)")] |}) /\
  EvLogError
    "Unexpected error in recommendations: Expecting value: line 1 column 1 (char 0)"
    ∈ trace (invoke env call).
Proof.
  intros r env call.
  apply (undecodable_body_is_api_error env call
           (AsyncClient 30) (request_of env call) r
           "Expecting value: line 1 column 1 (char 0)").
  - apply (valid_sends env call). split; [lia | exact recent_is_a_pool].
  - reflexivity.
  - reflexivity.
  - reflexivity.
Defined.

(** *** What the request carries *)

Lemma dict_get_with_fields_limit (l : Z) (rest : dict) (f : option string) :
  dict_get "limit" (with_fields (("limit", VInt l) :: rest) f) = Some (VInt l).
Proof. unfold with_fields. by destruct (truthy_str f). Qed.

(** X6: the only check on [limit] is the ceiling of 500: whenever a
    request is sent the limit is at most 500 and is passed on unchanged
    as the [limit] query parameter, also when it is zero or negative. *)
Theorem limit_forwarded_unchanged (env : Env) (call : tool_call)
    (c : client) (req : Request) :
  EvSend c req ∈ trace (invoke env call) ->
  limit_of call <= 500 /\
  dict_get "limit" (req_params req) = Some (VInt (limit_of call)).
Proof.
  intros Hs. apply sent_inv in Hs as (Hv & _ & ->).
  destruct call as [p f l fp | pos neg f l]; destruct Hv as [H1 H2]; cbn.
  - split; [done | apply dict_get_with_fields_limit].
  - split; [done | apply dict_get_with_fields_limit].
Qed.

(** A limit of -3 goes upstream. *)
Lemma limit_forwarded_unchanged_witness :
  let call := Single "649def34" None (-3) "recent" in
  -3 <= 500 /\
  dict_get "limit" (req_params (request_of env_ok call)) = Some (VInt (-3)).
Proof.
  intros call.
  apply (limit_forwarded_unchanged env_ok call
           (AsyncClient 30) (request_of env_ok call)).
  apply (valid_sends env_ok call). split; [lia | exact recent_is_a_pool].
Defined.

(** X7: the [fields] query parameter is sent exactly when [fields] is a
    non-empty string, and then holds that string; [None] and the empty
    string both leave it out. *)
Theorem fields_sent_when_not_empty (env : Env) (call : tool_call)
    (c : client) (req : Request) :
  EvSend c req ∈ trace (invoke env call) ->
  dict_get "fields" (req_params req)
    = match fields_of call with
      | Some s => if String.eqb s "" then None else Some (VStr s)
      | None => None
      end.
Proof.
  intros Hs. apply sent_inv in Hs as (_ & _ & ->).
  destruct call as [p f l fp | pos neg f l]; cbn; unfold with_fields;
    destruct f as [s |]; cbn; try done; by destruct (String.eqb s "").
Qed.

(** An empty [fields] string is left out. *)
Lemma fields_sent_when_not_empty_witness :
  let call := Multi ["649def34"] None (Some "") 100 in
  dict_get "fields" (req_params (request_of env_ok call)) = None.
Proof.
  intros call.
  apply (fields_sent_when_not_empty env_ok call
           (AsyncClient 30) (request_of env_ok call)).
  apply (valid_sends env_ok call). split; [done | lia].
Defined.

(** X8: the request carries the single header [x-api-key] when an API
    key is configured and non-empty, and no header at all otherwise;
    an empty key counts as no key. *)
Theorem api_key_header_when_configured (env : Env) (call : tool_call)
    (c : client) (req : Request) :
  EvSend c req ∈ trace (invoke env call) ->
  req_headers req
    = match configured_api_key env with
      | Some k => if String.eqb k "" then [] else [("x-api-key", k)]
      | None => []
      end.
Proof.
  intros Hs. apply sent_inv in Hs as (_ & _ & ->).
  destruct call; cbn; unfold credential_headers, get_api_key;
    destruct (configured_api_key env) as [k |]; cbn; try done;
    by destruct (String.eqb k "").
Qed.

(** An empty key gives no header. *)
Lemma api_key_header_when_configured_witness :
  let env := env_answering (Some "") (Returned (response_of 200 [] "")) in
  let call := Single "649def34" None 100 "recent" in
  req_headers (request_of env call) = [].
Proof.
  intros env call.
  apply (api_key_header_when_configured env call
           (AsyncClient 30) (request_of env call)).
  apply (valid_sends env call). split; [lia | exact recent_is_a_pool].
Defined.

(** X9: whatever [get_paper_recommendations_single] sends is a GET
    without a JSON body to the [forpaper] URL followed by [paper_id]
    as it was passed, with the pool, one of "recent" and "all-cs",
    under the [from] query parameter. *)
Theorem single_request_line (env : Env)
    (paper_id : string) (fields : option string) (limit : Z) (from_pool : string)
    (c : client) (req : Request) :
  EvSend c req
    ∈ trace (get_paper_recommendations_single env paper_id fields limit from_pool) ->
  req_method req = GET /\
  req_url req
    = "https://api.semanticscholar.org/recommendations/v1/papers/forpaper/"
        ++ paper_id /\
  req_json req = None /\
  dict_get "from" (req_params req) = Some (VStr from_pool) /\
  from_pool ∈ ["recent"; "all-cs"].
Proof.
  intros Hs.
  apply (sent_inv env (Single paper_id fields limit from_pool)) in Hs
    as ([_ Hp] & _ & ->).
  cbn. repeat split; try done.
  unfold with_fields. by destruct (truthy_str fields).
Qed.

(** An arXiv id and the pool "all-cs". *)
Lemma single_request_line_witness :
  let req := request_of env_ok (Single "ARXIV:2106.15928" None 100 "all-cs") in
  req_method req = GET /\
  req_url req
    = "https://api.semanticscholar.org/recommendations/v1/papers/forpaper/ARXIV:2106.15928" /\
  req_json req = None /\
  dict_get "from" (req_params req) = Some (VStr "all-cs") /\
  "all-cs" ∈ ["recent"; "all-cs"].
Proof.
  intros req.
  apply (single_request_line env_ok "ARXIV:2106.15928" None 100 "all-cs"
           (AsyncClient 30) req).
  apply (valid_sends env_ok (Single "ARXIV:2106.15928" None 100 "all-cs")).
  split; [lia |]. apply elem_of_cons. right. apply elem_of_cons. by left.
Defined.

Lemma or_empty_default (neg : option (list string)) :
  or_empty neg = default [] neg.
Proof. by destruct neg as [[| x l] |]. Qed.

(** X10: whatever [get_paper_recommendations_multi] sends is a POST to
    the papers URL for a non-empty list of positive ids, whose JSON
    body holds that list under [positivePaperIds] and the negative ids
    as passed (the empty list when there are none) under
    [negativePaperIds]. *)
Theorem multi_request_body (env : Env)
    (pos : list string) (neg : option (list string))
    (fields : option string) (limit : Z) (c : client) (req : Request) :
  EvSend c req
    ∈ trace (get_paper_recommendations_multi env pos neg fields limit) ->
  pos <> [] /\
  req_method req = POST /\
  req_url req = "https://api.semanticscholar.org/recommendations/v1/papers" /\
  req_json req
    = Some (VDict [("positivePaperIds", VList (map VStr pos));
                   ("negativePaperIds", VList (map VStr (default [] neg)))]).
Proof.
  intros Hs.
  apply (sent_inv env (Multi pos neg fields limit)) in Hs as ([Hp _] & _ & ->).
  cbn. rewrite or_empty_default. done.
Qed.

(** One positive and one negative id. *)
Lemma multi_request_body_witness :
  let req := request_of env_ok
               (Multi ["649def34"] (Some ["ARXIV:2106.15928"]) None 100) in
  ["649def34"] <> [] /\
  req_method req = POST /\
  req_url req = "https://api.semanticscholar.org/recommendations/v1/papers" /\
  req_json req
    = Some (VDict [("positivePaperIds", VList [VStr "649def34"]);
                   ("negativePaperIds", VList [VStr "ARXIV:2106.15928"])]).
Proof.
  intros req.
  apply (multi_request_body env_ok ["649def34"] (Some ["ARXIV:2106.15928"])
           None 100 (AsyncClient 30) req).
  apply (valid_sends env_ok
           (Multi ["649def34"] (Some ["ARXIV:2106.15928"]) None 100)).
  split; [done | lia].
Defined.

(** ** The server process *)

Section ServerFacts.
Import Server.

Ltac unfold_server :=
  unfold shutdown, run_server_block, run_server, run_server_try,
    async_with_mcp, main, main_try, main_finally, init_signal_handlers,
    handle_exception, getitem, get_or, logger_info, logger_error, call,
    done, throw, try_finally, try_except_clauses, mbind, Run_bind, and_then,
    mret, Run_ret, ending_of, events in *.

(** One turn of the loop of [shutdown]. *)
Lemma cancel_and_await_cons (t : task) (rest : list task) :
  cancel_and_await (t :: rest)
  = match awaited t with
    | Done _ | Thrown CancelledError =>
        let '(r, tr) := cancel_and_await rest in
        (r, TaskCancel (task_id t) :: TaskAwait (task_id t) :: tr)
    | Thrown x => (Thrown x, [TaskCancel (task_id t); TaskAwait (task_id t)])
    end.
Proof.
  cbn. unfold_server. cbn.
  destruct (awaited t) as [[] | [| | e]]; cbn; try reflexivity.
  all: by destruct (cancel_and_await rest).
Qed.

Lemma cancel_and_await_settled (pre rest : list task) :
  Forall settles pre ->
  cancel_and_await (pre ++ rest)
  = (ending_of (cancel_and_await rest),
     (cancel_events pre ++ events (cancel_and_await rest))%list).
Proof.
  induction 1 as [| t pre Ht _ IH].
  - cbn. by destruct (cancel_and_await rest).
  - rewrite <- app_comm_cons, cancel_and_await_cons, IH.
    by destruct Ht as [-> | ->]; cbn.
Qed.

Lemma cancel_and_await_events (tasks : list task) :
  Forall is_task_event (events (cancel_and_await tasks)).
Proof.
  induction tasks as [| t rest IH]; [constructor |].
  rewrite cancel_and_await_cons.
  destruct (cancel_and_await rest) as [r tr]. cbn in IH.
  destruct (awaited t) as [[] | [| | e]]; cbn; repeat constructor; done.
Qed.

(** X11: when every other task, once cancelled, finishes or ends with
    [CancelledError], and both clean-ups return, [shutdown] returns
    after cancelling and awaiting each task in turn, releasing the HTTP
    client before [mcp.cleanup], and reporting the number of tasks. *)
Theorem shutdown_graceful (env : Env) :
  Forall settles (other_tasks env) ->
  cleanup_client_ends env = Done tt ->
  mcp_cleanup_ends env = Done tt ->
  shutdown env
  = (Done tt,
     ([LogInfo "Initiating graceful shutdown..."]
      ++ cancel_events (other_tasks env)
      ++ [CleanupClient; McpCleanup;
          LogInfo ("Cancelled "
                   ++ str_int (Z.of_nat (length (other_tasks env)))
                   ++ " tasks");
          LogInfo "Shutdown complete"])%list).
Proof.
  intros Ht Hc Hm.
  pose proof (cancel_and_await_settled (other_tasks env) [] Ht) as Hl.
  rewrite app_nil_r in Hl. cbn in Hl. rewrite app_nil_r in Hl.
  unfold shutdown. unfold_server. rewrite Hl, Hc, Hm. reflexivity.
Qed.

(** Two tasks, one cancelled and one already finished. *)
Lemma shutdown_graceful_witness :
  shutdown quiet_env
  = (Done tt,
     [LogInfo "Initiating graceful shutdown...";
      TaskCancel 1; TaskAwait 1; TaskCancel 2; TaskAwait 2;
      CleanupClient; McpCleanup;
      LogInfo "Cancelled 2 tasks"; LogInfo "Shutdown complete"]).
Proof.
  apply (shutdown_graceful quiet_env).
  - constructor; [by right |]. constructor; [by left | constructor].
  - reflexivity.
  - reflexivity.
Defined.

(** X12: when awaiting a cancelled task raises anything other than
    [CancelledError], [shutdown] ends with that exception at once: the
    tasks after it are not cancelled, and neither [cleanup_client] nor
    [mcp.cleanup] is called. *)
Theorem shutdown_stops_at_failed_task (env : Env)
    (pre post : list task) (t : task) (x : raised) :
  other_tasks env = (pre ++ t :: post)%list ->
  Forall settles pre ->
  awaited t = Thrown x -> x <> CancelledError ->
  shutdown env
  = (Thrown x,
     ([LogInfo "Initiating graceful shutdown..."]
      ++ cancel_events pre
      ++ [TaskCancel (task_id t); TaskAwait (task_id t)])%list).
Proof.
  intros Ho Hp Ht Hx.
  pose proof (cancel_and_await_settled pre (t :: post) Hp) as Hl.
  rewrite cancel_and_await_cons, Ht in Hl.
  unfold shutdown. unfold_server. rewrite Ho, Hl.
  by destruct x.
Qed.

(** The second of three tasks fails. *)
Lemma shutdown_stops_at_failed_task_witness :
  shutdown failing_task_env
  = (Thrown (ExceptionOf (OtherException "boom")),
     [LogInfo "Initiating graceful shutdown...";
      TaskCancel 1; TaskAwait 1; TaskCancel 2; TaskAwait 2]).
Proof.
  apply (shutdown_stops_at_failed_task failing_task_env
           [{| task_id := 1; awaited := Thrown CancelledError |}]
           [{| task_id := 3; awaited := Done tt |}]
           {| task_id := 2;
              awaited := Thrown (ExceptionOf (OtherException "boom")) |}
           (ExceptionOf (OtherException "boom"))).
  - reflexivity.
  - constructor; [by right | constructor].
  - reflexivity.
  - discriminate.
Defined.

Lemma shutdown_events_kinds (env : Env) :
  Forall (is_shutdown_event (length (other_tasks env))) (events (shutdown env)).
Proof.
  pose proof (cancel_and_await_events (other_tasks env)) as Hl.
  unfold shutdown. unfold_server.
  destruct (cancel_and_await (other_tasks env)) as [[[] | x] tr]; cbn in *.
  all: assert (Ht : Forall (is_shutdown_event (length (other_tasks env))) tr)
    by (eapply Forall_impl; [exact Hl | by intros []]).
  2:{ constructor; [by left | done]. }
  destruct (cleanup_client_ends env) as [[] | x],
    (mcp_cleanup_ends env) as [[] | y]; cbn.
  all: constructor; [by left |]; apply Forall_app; split; [done |].
  all: repeat (constructor; [cbn; auto |]); constructor.
Qed.

(** X13: [shutdown] logs "Shutdown complete" exactly when it returns
    without raising. *)
Theorem shutdown_complete_iff_done (env : Env) :
  LogInfo "Shutdown complete" ∈ events (shutdown env) <->
  ending_of (shutdown env) = Done tt.
Proof.
  pose proof (cancel_and_await_events (other_tasks env)) as Hl.
  unfold shutdown. unfold_server.
  destruct (cancel_and_await (other_tasks env)) as [[[] | x] tr]; cbn in *.
  2:{ split; [| discriminate]. intros H. exfalso.
      apply elem_of_cons in H as [H | H]; [discriminate |].
      rewrite Forall_forall in Hl. by apply Hl in H. }
  destruct (cleanup_client_ends env) as [[] | x], (mcp_cleanup_ends env) as [[] | y];
    cbn.
  1:{ split; [done |]. intros _. apply elem_of_cons. right.
      apply elem_of_app. right. do 3 (apply elem_of_cons; right).
      apply elem_of_cons. by left. }
  all: split; [| discriminate]; intros H; exfalso.
  all: apply elem_of_cons in H as [H | H]; [discriminate |].
  all: apply elem_of_app in H as [H | H];
    [rewrite Forall_forall in Hl; by apply Hl in H | pick_event H].
Qed.

(** The quiet process completes its shutdown. *)
Lemma shutdown_complete_iff_done_witness :
  LogInfo "Shutdown complete" ∈ events (shutdown quiet_env).
Proof.
  apply (proj2 (shutdown_complete_iff_done quiet_env)). reflexivity.
Defined.


(** *** [run_server] *)

Lemma run_server_block_events (env : Env) :
  events (run_server_block env)
  = (events (run_server_try env)
     ++ server_error_log (ending_of (run_server_try env))
     ++ events (shutdown env))%list.
Proof.
  unfold run_server_block, try_finally, try_except_clauses.
  destruct (run_server_try env) as [[[] | [| | e]] t];
    destruct (shutdown env) as [[[] | y] ts]; cbn.
  all: by rewrite <- ?app_assoc, ?app_nil_r.
Qed.

Lemma run_server_block_ending (env : Env) :
  ending_of (run_server_block env)
  = match ending_of (shutdown env) with
    | Thrown y => Thrown y
    | Done _ => ending_of (run_server_try env)
    end.
Proof.
  unfold run_server_block, try_finally, try_except_clauses.
  destruct (run_server_try env) as [[[] | [| | e]] t];
    destruct (shutdown env) as [[[] | y] ts]; reflexivity.
Qed.

(** X14: in [run_server], [shutdown] runs after the [try] body on every
    path; an [Exception] of the body is logged as "Server error: ..."
    first, a [CancelledError] or [KeyboardInterrupt] is not; and the
    statement ends as its body did unless [shutdown] raises, in which
    case that exception replaces the body's. *)
Theorem run_server_always_shuts_down (env : Env) :
  events (run_server_block env)
  = (events (run_server_try env)
     ++ server_error_log (ending_of (run_server_try env))
     ++ events (shutdown env))%list /\
  ending_of (run_server_block env)
  = match ending_of (shutdown env) with
    | Thrown y => Thrown y
    | Done _ => ending_of (run_server_try env)
    end.
Proof.
  split; [apply run_server_block_events | apply run_server_block_ending].
Qed.

Lemma run_server_try_init_fails (env : Env) (x : raised) :
  initialize_client_ends env = Thrown x ->
  run_server_try env = (Thrown x, [InitializeClient]).
Proof. intros Hi. unfold run_server_try. unfold_server. by rewrite Hi. Qed.

Lemma run_server_events (env : Env) :
  events (run_server env)
  = match mcp_aenter_ends env with
    | Done _ => (McpEnter :: events (run_server_block env) ++ [McpExit])%list
    | Thrown _ => [McpEnter]
    end.
Proof.
  unfold run_server, async_with_mcp, call, mbind, Run_bind, and_then.
  destruct (mcp_aenter_ends env) as [[] | y]; [| reflexivity].
  by destruct (run_server_block env).
Qed.

(** X15: when [initialize_client] raises, [mcp.run_async] is never
    called. *)
Theorem initialize_failure_skips_run (env : Env) (x : raised) :
  initialize_client_ends env = Thrown x ->
  McpRunAsync ∉ events (run_server env).
Proof.
  intros Hi Hin.
  pose proof (shutdown_events_kinds env) as Hk. rewrite Forall_forall in Hk.
  rewrite run_server_events, run_server_block_events in Hin.
  rewrite (run_server_try_init_fails env x Hi) in Hin.
  destruct (mcp_aenter_ends env) as [[] | y]; [| pick_event Hin].
  apply elem_of_cons in Hin as [Hin | Hin]; [discriminate |].
  apply elem_of_app in Hin as [Hin | Hin]; [| pick_event Hin].
  apply elem_of_app in Hin as [Hin | Hin]; [pick_event Hin |].
  apply elem_of_app in Hin as [Hin | Hin]; [destruct x; pick_event Hin |].
  by apply Hk in Hin.
Qed.

(** The client cannot be initialised. *)
Lemma initialize_failure_skips_run_witness :
  McpRunAsync ∉ events (run_server no_client_env).
Proof.
  apply (initialize_failure_skips_run no_client_env
           (ExceptionOf (OtherException "no network"))).
  reflexivity.
Defined.

(** *** [main] *)

(** X16: [main] never ends with an [Exception]: whatever the set-up,
    the server or the final clean-up raise of that class is caught. *)
Theorem main_lets_no_exception_out (env : Env) (e : exn) :
  ending_of (main env) <> Thrown (ExceptionOf e).
Proof.
  unfold main, main_finally. unfold try_finally, try_except_clauses.
  destruct (main_try env) as [[[] | [| | e']] t]; unfold_server; cbn.
  all: destruct (sleep0_ends env) as [[] | [| | e1]]; cbn; try discriminate.
  all: destruct (loop_close_ends env) as [[] | [| | e2]]; cbn; discriminate.
Qed.

(** X17: unless the final clean-up is interrupted by a [CancelledError]
    or [KeyboardInterrupt], the last thing [main] does is to log
    "Server stopped". *)
Theorem main_logs_server_stopped_last (env : Env) :
  no_interrupt (sleep0_ends env) -> no_interrupt (loop_close_ends env) ->
  last (events (main env)) = Some (LogInfo "Server stopped").
Proof.
  intros Hs Hc.
  unfold main, main_finally. unfold try_finally, try_except_clauses.
  destruct (main_try env) as [[[] | [| | e']] t]; unfold_server; cbn.
  all: destruct (sleep0_ends env) as [[] | [| | e1]]; cbn in *; try done.
  all: try destruct (loop_close_ends env) as [[] | [| | e2]]; cbn in *;
    try done.
  all: apply last_app_Some; by left.
Qed.

(** Also when the signal handlers cannot be installed. *)
Lemma main_logs_server_stopped_last_witness :
  last (events (main no_signals_env)) = Some (LogInfo "Server stopped").
Proof.
  apply (main_logs_server_stopped_last no_signals_env); exact I.
Defined.

Lemma main_events (env : Env) :
  events (main env)
  = (events (main_try env)
     ++ main_report (ending_of (main_try env))
     ++ events (main_finally env))%list.
Proof.
  unfold main, try_finally, try_except_clauses.
  destruct (main_try env) as [[[] | [| | e]] t];
    destruct (main_finally env) as [[[] | y] tf]; cbn.
  all: by rewrite <- ?app_assoc, ?app_nil_r.
Qed.

Lemma main_ending (env : Env) :
  ending_of (main env)
  = match ending_of (main_finally env) with
    | Thrown y => Thrown y
    | Done _ =>
        match ending_of (main_try env) with
        | Thrown CancelledError => Thrown CancelledError
        | _ => Done tt
        end
    end.
Proof.
  unfold main, try_finally, try_except_clauses.
  destruct (main_try env) as [[[] | [| | e]] t];
    destruct (main_finally env) as [[[] | y] tf]; reflexivity.
Qed.

(** X18: [main] runs its [finally] block on every path, after logging
    "Fatal error: ..." for an [Exception] of its [try] body or the
    keyboard-interrupt line for a [KeyboardInterrupt]; it returns
    unless the body ended with [CancelledError] or the [finally] block
    itself raises. *)
Theorem main_reports_how_server_ended (env : Env) :
  events (main env)
  = (events (main_try env)
     ++ main_report (ending_of (main_try env))
     ++ events (main_finally env))%list /\
  ending_of (main env)
  = match ending_of (main_finally env) with
    | Thrown y => Thrown y
    | Done _ =>
        match ending_of (main_try env) with
        | Thrown CancelledError => Thrown CancelledError
        | _ => Done tt
        end
    end.
Proof. split; [apply main_events | apply main_ending]. Qed.

(** X19: when installing the signal handlers raises, the server is
    never started: [main] neither enters [mcp] nor initialises the HTTP
    client. *)
Theorem signal_handler_failure_prevents_start (env : Env) (x : raised) :
  ending_of (init_signal_handlers env) = Thrown x ->
  (McpEnter ∉ events (main env)) /\ (InitializeClient ∉ events (main env)).
Proof.
  intros Hi.
  assert (Hk : forall ev, ev ∈ events (main env) ->
                 ev <> McpEnter /\ ev <> InitializeClient).
  2:{ split; intros Hin; apply Hk in Hin as [? ?]; done. }
  intros ev Hin. rewrite main_events in Hin. revert Hi Hin.
  unfold main_finally, main_try, init_signal_handlers. unfold_server. cbn.
  destruct (add_signal_handler_ends env SIGTERM) as [[] | [| | e1]]; cbn;
    try destruct (add_signal_handler_ends env SIGINT) as [[] | [| | e2]]; cbn.
  all: try discriminate.
  all: intros _.
  all: destruct (sleep0_ends env) as [[] | [| | e3]]; cbn;
    try destruct (loop_close_ends env) as [[] | [| | e4]]; cbn.
  all: intros Hin; pick_event Hin; by subst.
Qed.

(** A platform without [add_signal_handler]. *)
Lemma signal_handler_failure_prevents_start_witness :
  (McpEnter ∉ events (main no_signals_env)) /\
  (InitializeClient ∉ events (main no_signals_env)).
Proof.
  apply (signal_handler_failure_prevents_start no_signals_env
           (ExceptionOf (OtherException "NotImplementedError"))).
  reflexivity.
Defined.

(** *** [handle_exception] *)

(** X20: [handle_exception] reads [context["message"]] before anything
    else: without that key it raises [KeyError], logs nothing and
    schedules no shutdown, even when the context holds an exception;
    with it, it logs "Caught exception: " followed by the exception if
    there is one and by the message otherwise, and schedules
    [shutdown]. *)
Theorem handle_exception_reads_message_first
    (context : list (string * context_value)) :
  match context_lookup "message" context with
  | None =>
      handle_exception context
      = (Thrown (ExceptionOf (OtherException "'message'")), [])
  | Some m =>
      handle_exception context
      = (Done tt,
         [LogError ("Caught exception: "
                    ++ str_context_value
                         (default m (context_lookup "exception" context)));
          CreateTaskShutdown])
  end.
Proof.
  unfold handle_exception. unfold_server.
  by destruct (context_lookup "message" context).
Qed.

End ServerFacts.
